(** * dash-finance: the Flask backend [backend.py]

    A shallow embedding of the two request handlers [login] and [admin] of
    [src/public/backend.py], of the [users] table declared by [init_db], and
    of the three SQL statements the handlers send, followed by the
    properties of the handlers.

    Modelling conventions.
    - A Python [str] is a [string]; every element of the string stands for
      one character (the column limits of the schema count characters), and
      the element of code 0 is U+0000, which the driver refuses in a
      parameter of a statement.  The strings are those that can be encoded
      for the database: a lone surrogate, which a JSON body can carry, is
      not among the characters.
    - The value returned by [request.get_json()] is a [json]; [JNull] is
      Python's [None].  [request.form] is a finite map from field names to
      values.
    - Everything a handler can change lives in one [World]: the committed
      rows of [users], the [SERIAL] sequence, the open connections with the
      state of their transaction, the flashed messages of the session, and
      a log of the calls made to the driver and to [flash].  Handlers are
      computations in a state-and-exception monad over [World].
    - [werkzeug.security] is not part of the repository: its two functions
      are parameters of the development.  [generate_password_hash] draws a
      random salt; the salt is an explicit argument. *)

From Stdlib Require Import Ascii.
From stdpp Require Import gmap strings list sorting.

Set Warnings "-register-all".
Local Open Scope Z_scope.
Local Open Scope string_scope.
Local Open Scope list_scope.

(** ** JSON values and Python truthiness *)

(** What [json.loads] builds.  Numbers are the integers: the handlers only
    ask of a number whether it is zero and whether it is a string. *)
Inductive json : Type :=
  | JNull
  | JBool (b : bool)
  | JNum (n : Z)
  | JStr (s : string)
  | JArr (l : list json)
  | JObj (o : gmap string json).

(** [bool(x)] for a decoded JSON value: [None], [False], [0], the empty
    string, the empty list and the empty dict are false. *)
Definition truthy (j : json) : bool :=
  match j with
  | JNull => false
  | JBool b => b
  | JNum n => negb (n =? 0)%Z
  | JStr s => negb (String.eqb s "")
  | JArr l => negb (Nat.eqb (length l) 0)
  | JObj o => negb (Nat.eqb (size o) 0)
  end.

(** [bool(d.get(k))]: a missing key gives [None]. *)
Definition truthy_get (o : gmap string json) (k : string) : bool :=
  match o !! k with
  | Some v => truthy v
  | None => false
  end.

(** [x or ""] for a nullable text column. *)
Definition or_empty (x : option string) : string :=
  match x with
  | Some s => if String.eqb s "" then "" else s
  | None => ""
  end.

Definition json_of_text (x : option string) : json :=
  match x with
  | Some s => JStr s
  | None => JNull
  end.

(** ** The [users] table

    [init_db]:
<<
    id SERIAL PRIMARY KEY,
    email VARCHAR(120) UNIQUE NOT NULL,
    password_hash VARCHAR(256) NOT NULL,
    name VARCHAR(100),
    photo TEXT,
    created_at TIMESTAMP WITH TIME ZONE DEFAULT CURRENT_TIMESTAMP
>> *)

Module users.
Record row : Type := Row {
  id : Z;
  email : string;
  password_hash : string;
  name : option string;
  photo : option string;
  created_at : Z
}.
End users.

Definition EMAIL_MAX : nat := 120.
Definition PASSWORD_HASH_MAX : nat := 256.
Definition NAME_MAX : nat := 100.

Fixpoint all_spaces (s : string) : bool :=
  match s with
  | EmptyString => true
  | String c s' => Ascii.eqb c " "%char && all_spaces s'
  end.

(** Does the string hold U+0000? *)
Fixpoint has_nul (s : string) : bool :=
  match s with
  | EmptyString => false
  | String c s' => Ascii.eqb c Ascii.zero || has_nul s'
  end.

(** A line feed, a double quote, and U+0000. *)
Definition LF : string := String (ascii_of_nat 10) EmptyString.
Definition DQ : string := String (ascii_of_nat 34) EmptyString.
Definition NUL : string := String Ascii.zero EmptyString.

(** Storing a string into a [VARCHAR(n)] column: a value of at most [n]
    characters is stored as it is; a longer one is an error, unless all the
    characters in excess are spaces, in which case it is cut to [n]. *)
Definition varchar (n : nat) (s : string) : option string :=
  if (String.length s <=? n)%nat then Some s
  else if all_spaces (String.substring n (String.length s - n) s)
       then Some (String.substring 0 n s)
       else None.

Definition email_is (e : string) (u : users.row) : bool :=
  String.eqb (users.email u) e.

(** [SELECT * FROM users WHERE email = %s] followed by [fetchone()]. *)
Definition select_by_email (e : string) (t : list users.row)
  : option users.row :=
  List.find (email_is e) t.

(** [ORDER BY created_at DESC]: the row with the later timestamp first. *)
Definition newer_first (u v : users.row) : Prop :=
  (users.created_at v <= users.created_at u)%Z.

#[global] Instance newer_first_dec u v : Decision (newer_first u v).
Proof. unfold newer_first. apply _. Defined.

Definition listing_of (u : users.row) : option string * string :=
  (users.name u, users.email u).

(** [SELECT name, email FROM users ORDER BY created_at DESC] followed by
    [fetchall()]. *)
Definition select_name_email (t : list users.row)
  : list (option string * string) :=
  listing_of <$> merge_sort newer_first t.

(** The three outcomes of
    [INSERT INTO users (name, email, password_hash) VALUES (%s, %s, %s)]. *)
Inductive insert_result : Type :=
  | Inserted (r : users.row)
  | UniqueViolation
  | StringTooLong (column_type : string).

(** The values are first coerced to the types of their columns, in the
    order of the columns of the table; only then is the row built ([id]
    from the sequence, [created_at] from the clock, [photo] null) and
    checked against the unique index on [email]. *)
Definition insert_user (t : list users.row) (next_id now : Z)
    (nm em ph : string) : insert_result :=
  match varchar EMAIL_MAX em with
  | None => StringTooLong "character varying(120)"
  | Some em' =>
    match varchar PASSWORD_HASH_MAX ph with
    | None => StringTooLong "character varying(256)"
    | Some ph' =>
      match varchar NAME_MAX nm with
      | None => StringTooLong "character varying(100)"
      | Some nm' =>
        match select_by_email em' t with
        | Some _ => UniqueViolation
        | None => Inserted (users.Row next_id em' ph' (Some nm') None now)
        end
      end
    end
  end.

(** ** The world of a request *)

(** The transaction of a connection: none begun, begun with the rows it
    has inserted and not yet committed, or failed (every statement is
    refused until [rollback]). *)
Inductive txn : Type :=
  | TxIdle
  | TxActive (pending : list users.row)
  | TxFailed.

Inductive statement : Type :=
  | SelectByEmail (e : string)
  | InsertUser (nm em ph : string)
  | SelectNameEmail.

(** The strings that the driver puts into the text of the statement. *)
Definition statement_params (q : statement) : list string :=
  match q with
  | SelectByEmail e => [e]
  | InsertUser nm em ph => [nm; em; ph]
  | SelectNameEmail => []
  end.

(** What a handler does to the outside, in the order it does it. *)
Inductive event : Type :=
  | EvConnect (ok : bool)
  | EvExecute (h : nat) (q : statement)
  | EvCommit (h : nat)
  | EvRollback (h : nat)
  | EvClose (h : nat)
  | EvFlash (category message : string).

Record World : Type := mkWorld {
  db_up : bool;                     (* does [psycopg2.connect] succeed *)
  table : list users.row;           (* the committed rows of [users] *)
  next_id : Z;                      (* the sequence behind [id SERIAL] *)
  clock : Z;                        (* [CURRENT_TIMESTAMP] *)
  conns : gmap nat txn;             (* the connections that are open *)
  next_conn : nat;                  (* the handle of the next connection *)
  flashes : list (string * string); (* [session['_flashes']] *)
  trace : list event
}.

Definition set_table (t : list users.row) (w : World) : World :=
  let 'mkWorld up _ n c cs nc fl tr := w in mkWorld up t n c cs nc fl tr.

Definition set_next_id (n : Z) (w : World) : World :=
  let 'mkWorld up t _ c cs nc fl tr := w in mkWorld up t n c cs nc fl tr.

Definition set_conns (cs : gmap nat txn) (w : World) : World :=
  let 'mkWorld up t n c _ nc fl tr := w in mkWorld up t n c cs nc fl tr.

Definition set_next_conn (nc : nat) (w : World) : World :=
  let 'mkWorld up t n c cs _ fl tr := w in mkWorld up t n c cs nc fl tr.

Definition set_flashes (fl : list (string * string)) (w : World) : World :=
  let 'mkWorld up t n c cs nc _ tr := w in mkWorld up t n c cs nc fl tr.

Definition record (ev : event) (w : World) : World :=
  let 'mkWorld up t n c cs nc fl tr := w in
  mkWorld up t n c cs nc fl (tr ++ [ev]).

Definition set_txn (h : nat) (x : txn) (w : World) : World :=
  set_conns (<[h := x]> (conns w)) w.

(** ** Python exceptions and the handler monad *)

Inductive exn : Type :=
  | AttributeError
  | KeyError (key : string)
  | ValueError (detail : string)
  | UnsupportedMediaType
  | BadRequest
  | BadRequestKeyError (key : string)
  | IntegrityError (detail : string)
  | DataError (detail : string)
  | ProgrammingError
  | InFailedSqlTransaction
  | InterfaceError.

(** [str(e)]; the message of an error of the server ends with a line
    feed. *)
Definition exn_str (e : exn) : string :=
  match e with
  | AttributeError => "object has no attribute"
  | KeyError k => k
  | ValueError d => d
  | UnsupportedMediaType => "415 Unsupported Media Type"
  | BadRequest => "400 Bad Request"
  | BadRequestKeyError k => "400 Bad Request: " +:+ k
  | IntegrityError d => d
  | DataError d => d
  | ProgrammingError => "can't adapt type"
  | InFailedSqlTransaction =>
      "current transaction is aborted, commands ignored until end of transaction block"
      +:+ LF
  | InterfaceError => "connection already closed"
  end.

Inductive outcome (A : Type) : Type :=
  | Returned (a : A)
  | Raised (e : exn).
Arguments Returned {A} a.
Arguments Raised {A} e.

(** A computation reads and changes the world and returns or raises. *)
Record M (A : Type) : Type := Step { run : World → outcome A * World }.
Arguments Step {A} run.
Arguments run {A} m w.

#[global] Instance M_ret : MRet M := λ A a, Step (λ w, (Returned a, w)).

#[global] Instance M_bind : MBind M := λ A B k m, Step (λ w,
  match run m w with
  | (Returned a, w') => run (k a) w'
  | (Raised e, w') => (Raised e, w')
  end).

Definition raise {A : Type} (e : exn) : M A := Step (λ w, (Raised e, w)).

(** [try: m  except Exception as e: handler e] *)
Definition try_except {A : Type} (m : M A) (handler : exn → M A) : M A :=
  Step (λ w, match run m w with
             | (Returned a, w') => (Returned a, w')
             | (Raised e, w') => run (handler e) w'
             end).

(** ** The driver *)

(** [get_db_connection]: a fresh connection, or [None] when
    [psycopg2.connect] raises [OperationalError]. *)
Definition get_db_connection : M (option nat) := Step (λ w,
  if db_up w then
    let h := next_conn w in
    (Returned (Some h),
     record (EvConnect true) (set_next_conn (S h) (set_txn h TxIdle w)))
  else (Returned None, record (EvConnect false) w)).

(** Every [cur.execute] first passes here.  The connection must be open.
    The driver then writes the parameters into the statement, and raises
    [ValueError] on a string that holds U+0000: nothing is sent.  Otherwise
    the statement goes to the server, which refuses it when the transaction
    has failed; a transaction is begun if there was none.  The rows the
    transaction has inserted so far are returned. *)
Definition begin_statement (h : nat) (q : statement) : M (list users.row) :=
  Step (λ w,
    let w1 := record (EvExecute h q) w in
    match conns w !! h with
    | None => (Raised InterfaceError, w1)
    | Some x =>
      if existsb has_nul (statement_params q) then
        (Raised (ValueError
           "A string literal cannot contain NUL (0x00) characters."), w1)
      else
        match x with
        | TxFailed => (Raised InFailedSqlTransaction, w1)
        | TxIdle => (Returned [], set_txn h (TxActive []) w1)
        | TxActive p => (Returned p, w1)
        end
    end).

Definition execute_select_by_email (h : nat) (e : string)
  : M (option users.row) :=
  p ← begin_statement h (SelectByEmail e);
  Step (λ w, (Returned (select_by_email e (table w ++ p)), w)).

Definition execute_select_name_email (h : nat)
  : M (list (option string * string)) :=
  p ← begin_statement h SelectNameEmail;
  Step (λ w, (Returned (select_name_email (table w ++ p)), w)).

(** What the server says of a second row with the email [e]. *)
Definition duplicate_key (e : string) : string :=
  "duplicate key value violates unique constraint "
  +:+ DQ +:+ "users_email_key" +:+ DQ +:+ LF
  +:+ "DETAIL:  Key (email)=(" +:+ e +:+ ") already exists." +:+ LF.

(** The sequence is not transactional: an id is used up by every row that
    reaches the unique index, also by one that the index refuses. *)
Definition execute_insert (h : nat) (nm em ph : string) : M unit :=
  p ← begin_statement h (InsertUser nm em ph);
  Step (λ w,
    match insert_user (table w ++ p) (next_id w) (clock w) nm em ph with
    | Inserted r =>
        (Returned (),
         set_txn h (TxActive (p ++ [r])) (set_next_id (next_id w + 1) w))
    | UniqueViolation =>
        (Raised (IntegrityError
           (duplicate_key (default em (varchar EMAIL_MAX em)))),
         set_txn h TxFailed (set_next_id (next_id w + 1) w))
    | StringTooLong ty =>
        (Raised (DataError ("value too long for type " +:+ ty +:+ LF)),
         set_txn h TxFailed w)
    end).

Definition commit (h : nat) : M unit := Step (λ w,
  let w1 := record (EvCommit h) w in
  match conns w !! h with
  | None => (Raised InterfaceError, w1)
  | Some (TxActive p) =>
      (Returned (), set_txn h TxIdle (set_table (table w ++ p) w1))
  | Some _ => (Returned (), set_txn h TxIdle w1)
  end).

Definition rollback (h : nat) : M unit := Step (λ w,
  let w1 := record (EvRollback h) w in
  match conns w !! h with
  | None => (Raised InterfaceError, w1)
  | Some _ => (Returned (), set_txn h TxIdle w1)
  end).

(** [conn.close()]: what the transaction had not committed is lost. *)
Definition close (h : nat) : M unit := Step (λ w,
  (Returned (), set_conns (delete h (conns w)) (record (EvClose h) w))).

(** ** Flask *)

Inductive body : Type :=
  | JsonBody (j : json)
  | TextBody (s : string)
  | HtmlPage (messages : list (string * string))
             (listing : list (option string * string))
  | Redirect (location : string).

Record response : Type := Response { status : Z; content : body }.

(** [flash(message, category)] *)
Definition flash (message category : string) : M unit := Step (λ w,
  (Returned (),
   record (EvFlash category message)
          (set_flashes (flashes w ++ [(category, message)]) w))).

(** [render_template_string(ADMIN_TEMPLATE, users=users)]: the page shows
    the form, the messages flashed so far, which the template takes out of
    the session, and a line per user. *)
Definition render_template_string (listing : list (option string * string))
  : M response := Step (λ w,
  (Returned (Response 200 (HtmlPage (flashes w) listing)), set_flashes [] w)).

(** [request.form[key]] *)
Definition form_item (form : gmap string string) (key : string) : M string :=
  match form !! key with
  | Some v => mret v
  | None => raise (BadRequestKeyError key)
  end.

Inductive method : Type := GET | POST.

(** What Flask answers when the view raises. *)
Definition response_of_exn (e : exn) : response :=
  match e with
  | UnsupportedMediaType => Response 415 (TextBody "Unsupported Media Type")
  | BadRequest => Response 400 (TextBody "Bad Request")
  | BadRequestKeyError _ => Response 400 (TextBody "Bad Request")
  | _ => Response 500 (TextBody "Internal Server Error")
  end.

(** What [request.get_json()] finds in the request: a content type that
    is not JSON (so for a request without a body), a body announced as
    JSON that does not parse, or a JSON value. *)
Inductive payload : Type :=
  | NotJson
  | BadJson
  | Json (data : json).

(** [request.get_json()]: it raises on the first two, and Flask answers
    415 and 400; the JSON value [null] is returned as [None]. *)
Definition get_json (p : payload) : M json :=
  match p with
  | NotJson => raise UnsupportedMediaType
  | BadJson => raise BadRequest
  | Json data => mret data
  end.

Definition serve (view : M response) (w : World) : response * World :=
  match run view w with
  | (Returned r, w') => (r, w')
  | (Raised e, w') => (response_of_exn e, w')
  end.

(** A stand-in for [werkzeug.security], used where a statement has to be
    evaluated on concrete requests: the hash is a tag followed by one
    character other than U+0000, made of the sum of the character codes of
    the password; the check raises on a password that is not a string. *)
Fixpoint digest (s : string) : nat :=
  match s with
  | EmptyString => 0%nat
  | String c s' => ((nat_of_ascii c + digest s') mod 256)%nat
  end.

Definition demo_generate (salt password : string) : string :=
  "demo$" +:+ String (ascii_of_nat (S (digest password mod 255))) EmptyString.

Definition demo_check (pwhash : string) (password : json) : outcome bool :=
  match password with
  | JStr p => Returned (String.eqb pwhash (demo_generate "" p))
  | _ => Raised AttributeError
  end.

(** ** The views *)

Section Backend.

(** [ADMIN_PASSWORD = os.getenv('ADMIN_PASSWORD', 'admin123')] *)
Variable ADMIN_PASSWORD : string.

(** [generate_password_hash(password)], with the salt it draws, and
    [check_password_hash(pwhash, password)].  The view hands to the check
    whatever the body has under [password]; the library answers or
    raises. *)
Variable generate_password_hash : string → string → string.
Variable check_password_hash : string → json → outcome bool.

Definition bad_request : response :=
  Response 400 (JsonBody (JObj {[
    "success" := JBool false;
    "error" := JStr "Email e senha são obrigatórios." ]})).

Definition connection_error : response :=
  Response 500 (JsonBody (JObj {[
    "success" := JBool false;
    "error" := JStr "Erro de conexão com a base de dados." ]})).

Definition invalid_credentials : response :=
  Response 401 (JsonBody (JObj {[
    "success" := JBool false;
    "error" := JStr "Credenciais inválidas." ]})).

Definition user_profile (user : users.row) : json :=
  JObj {[
    "name" := json_of_text (users.name user);
    "email" := JStr (users.email user);
    "photo" := JStr (or_empty (users.photo user)) ]}.

Definition login_ok (user : users.row) : response :=
  Response 200 (JsonBody (JObj {[
    "success" := JBool true;
    "user" := user_profile user ]})).

(** [cur.execute("SELECT * FROM users WHERE email = %s", (data['email'],))]
    and [cur.fetchone()].  A value that is not a string is refused with a
    [ProgrammingError], by the driver or by the server; no row is read. *)
Definition fetch_user (h : nat) (email : option json)
  : M (option users.row) :=
  match email with
  | Some (JStr e) => execute_select_by_email h e
  | _ => raise ProgrammingError
  end.

(** [user and check_password_hash(user['password_hash'], data['password'])]:
    the password is looked at only when a row was found. *)
Definition verify (user : option users.row) (password : option json)
  : M (option users.row) :=
  match user with
  | None => mret None
  | Some u =>
    match password with
    | Some v =>
        match check_password_hash (users.password_hash u) v with
        | Returned true => mret (Some u)
        | Returned false => mret None
        | Raised e => raise e
        end
    | None => raise (KeyError "password")
    end
  end.

(** [POST /login]; [data] is [request.get_json()]. *)
Definition login (data : json) : M response :=
  if negb (truthy data) then mret bad_request
  else
    match data with
    | JObj o =>
      if negb (truthy_get o "email") || negb (truthy_get o "password")
      then mret bad_request
      else
        conn ← get_db_connection;
        match conn with
        | None => mret connection_error
        | Some h =>
            user ← fetch_user h (o !! "email");
            close h;;
            verified ← verify user (o !! "password");
            match verified with
            | Some u => mret (login_ok u)
            | None => mret invalid_credentials
            end
        end
    | _ => raise AttributeError
    end.

(** [POST /login] as Flask calls the view: line 121 decodes the request,
    and the rest of the view is [login]. *)
Definition post_login (p : payload) : M response :=
  data ← get_json p;
  login data.

(** The body of [if request.method == 'POST'], once the admin password
    has been accepted. *)
Definition create_user (h : nat) (form : gmap string string)
    (salt : string) : M unit :=
  name ← form_item form "name";
  email ← form_item form "email";
  password ← form_item form "password";
  let password_hash := generate_password_hash salt password in
  try_except
    (execute_insert h name email password_hash;;
     commit h;;
     flash ("Utilizador " +:+ email +:+ " criado com sucesso!") "success")
    (λ e, match e with
          | IntegrityError _ =>
              rollback h;;
              flash ("O email " +:+ email +:+ " já existe.") "error"
          | _ =>
              rollback h;;
              flash ("Ocorreu um erro: " +:+ exn_str e) "error"
          end).

(** [if request.form.get('admin_password') != ADMIN_PASSWORD] *)
Definition admin_password_ok (form : gmap string string) : bool :=
  match form !! "admin_password" with
  | Some s => String.eqb s ADMIN_PASSWORD
  | None => false
  end.

(** The part of [admin] under [if request.method == 'POST']: [Some r]
    when it returns [r], [None] when control goes on to the listing. *)
Definition admin_post (h : nat) (form : gmap string string)
    (salt : string) : M (option response) :=
  if negb (admin_password_ok form) then
    flash "Senha de admin incorreta!" "error";;
    mret (Some (Response 302 (Redirect "/admin")))
  else
    create_user h form salt;;
    mret None.

(** [GET /admin] and [POST /admin]; [form] is [request.form], [salt] the
    salt [generate_password_hash] would draw. *)
Definition admin (m : method) (form : gmap string string) (salt : string)
  : M response :=
  conn ← get_db_connection;
  match conn with
  | None =>
      mret (Response 500 (TextBody "Erro de conexão com a base de dados."))
  | Some h =>
      early ← match m with
              | POST => admin_post h form salt
              | GET => mret None
              end;
      match early with
      | Some r => mret r
      | None =>
          listing ← execute_select_name_email h;
          close h;;
          render_template_string listing
      end
  end.

End Backend.

(** ** The schema as an invariant of the table *)

Definition name_fits (nm : option string) : Prop :=
  match nm with
  | Some s => (String.length s ≤ NAME_MAX)%nat ∧ has_nul s = false
  | None => True
  end.

Definition row_ok (u : users.row) : Prop :=
  ((String.length (users.email u) ≤ EMAIL_MAX)%nat ∧
   has_nul (users.email u) = false) ∧
  ((String.length (users.password_hash u) ≤ PASSWORD_HASH_MAX)%nat ∧
   has_nul (users.password_hash u) = false) ∧
  name_fits (users.name u).

(** Every row respects the column limits and holds no U+0000, and no
    email occurs twice. *)
Definition schema_ok (t : list users.row) : Prop :=
  Forall row_ok t ∧ NoDup (users.email <$> t).

(** ** Sequences of requests *)

(** Between two requests the database may go away or come back and time
    passes; nothing else reaches the table. *)
Inductive request : Type :=
  | Login (data : json)
  | Admin (m : method) (form : gmap string string) (salt : string)
  | Outside (up : bool) (now : Z).

Definition set_outside (up : bool) (now : Z) (w : World) : World :=
  let 'mkWorld _ t n _ cs nc fl tr := w in mkWorld up t n now cs nc fl tr.

Definition step (admin_password : string)
    (generate : string → string → string)
    (check : string → json → outcome bool)
    (rq : request) (w : World) : World :=
  match rq with
  | Login data => snd (serve (login check data) w)
  | Admin m form salt =>
      snd (serve (admin admin_password generate m form salt) w)
  | Outside up now => set_outside up now w
  end.

Definition steps (admin_password : string)
    (generate : string → string → string)
    (check : string → json → outcome bool)
    (rqs : list request) (w : World) : World :=
  foldl (λ w rq, step admin_password generate check rq w) w rqs.

(** ** Concrete requests *)

(** [login(email, password)] as a JSON body. *)
Definition credentials (e p : string) : json :=
  JObj {[ "email" := JStr e; "password" := JStr p ]}.

(** The form of the admin page, filled in. *)
Definition filled_form (nm em pw admin_pw : string) : gmap string string :=
  {[ "action" := "create"; "name" := nm; "email" := em; "password" := pw;
     "admin_password" := admin_pw ]}.

Definition empty_world (up : bool) : World :=
  mkWorld up [] 1 0 ∅ 0 [] [].

Definition ana : users.row :=
  users.Row 1 "ana@x.com" (demo_generate "" "secret1") (Some "Ana") None 0.

Definition ana_world (up : bool) : World :=
  mkWorld up [ana] 2 10 ∅ 1 [] [].

Fixpoint repeat_char (c : ascii) (n : nat) : string :=
  match n with
  | O => EmptyString
  | S n' => String c (repeat_char c n')
  end.

(** * Properties *)

(** ** The store *)

Lemma varchar_fits (n : nat) (s : string) :
  (String.length s ≤ n)%nat → varchar n s = Some s.
Proof.
  intros H. unfold varchar.
  destruct (Nat.leb_spec (String.length s) n); [done | lia].
Qed.

Lemma length_substring_le (n : nat) (s : string) :
  (String.length (String.substring 0 n s) ≤ n)%nat.
Proof.
  revert s. induction n as [|n IH]; intros [|c s]; simpl; try lia.
  specialize (IH s). lia.
Qed.

Lemma varchar_length (n : nat) (s s' : string) :
  varchar n s = Some s' → (String.length s' ≤ n)%nat.
Proof.
  unfold varchar.
  destruct (Nat.leb_spec (String.length s) n) as [Hle|Hgt].
  - intros [= <-]. done.
  - destruct (all_spaces _); [|done].
    intros [= <-]. apply length_substring_le.
Qed.

Lemma has_nul_substring (n : nat) (s : string) :
  has_nul s = false → has_nul (String.substring 0 n s) = false.
Proof.
  revert s. induction n as [|n IH]; intros [|c s]; simpl; try done.
  intros [Hc Hs]%orb_false_elim. rewrite Hc. by apply IH.
Qed.

Lemma varchar_nul (n : nat) (s s' : string) :
  varchar n s = Some s' → has_nul s = false → has_nul s' = false.
Proof.
  unfold varchar. destruct (String.length s <=? n)%nat.
  - by intros [= <-].
  - destruct (all_spaces _); [|done].
    intros [= <-]. apply has_nul_substring.
Qed.

Lemma no_nul_params (nm em ph : string) :
  existsb has_nul [nm; em; ph] = false
  ↔ has_nul nm = false ∧ has_nul em = false ∧ has_nul ph = false.
Proof.
  simpl. rewrite !orb_false_iff. tauto.
Qed.

Lemma select_by_email_Some (e : string) (t : list users.row) (u : users.row) :
  select_by_email e t = Some u → u ∈ t ∧ users.email u = e.
Proof.
  unfold select_by_email. intros H.
  apply find_some in H as [Hin Heq].
  split; [by apply list_elem_of_In |].
  unfold email_is in Heq. by apply String.eqb_eq in Heq.
Qed.

Lemma select_by_email_None (e : string) (t : list users.row) :
  select_by_email e t = None ↔ e ∉ users.email <$> t.
Proof.
  unfold select_by_email. split.
  - intros H Hin. apply list_elem_of_fmap in Hin as (u & -> & Hu).
    apply list_elem_of_In in Hu.
    pose proof (find_none _ _ H u Hu) as Hf.
    unfold email_is in Hf. by rewrite String.eqb_refl in Hf.
  - intros Hnot. destruct (find _ t) as [u|] eqn:Hf; [|done].
    apply find_some in Hf as [Hin Heq].
    unfold email_is in Heq. apply String.eqb_eq in Heq.
    destruct Hnot. apply list_elem_of_fmap. exists u.
    split; [done | by apply list_elem_of_In].
Qed.

Lemma select_by_email_app_Some (e : string) (t t' : list users.row) u :
  select_by_email e t = Some u → select_by_email e (t ++ t') = Some u.
Proof.
  unfold select_by_email. induction t as [|v t IH]; simpl; [done|].
  destruct (email_is e v); [done | exact IH].
Qed.

Lemma select_by_email_app_None (e : string) (t t' : list users.row) :
  select_by_email e t = None →
  select_by_email e (t ++ t') = select_by_email e t'.
Proof.
  unfold select_by_email. induction t as [|v t IH]; simpl; [done|].
  destruct (email_is e v); [done | exact IH].
Qed.

Lemma select_by_email_singleton (r : users.row) :
  select_by_email (users.email r) [r] = Some r.
Proof.
  unfold select_by_email, email_is. simpl. by rewrite String.eqb_refl.
Qed.

Lemma or_empty_default (x : option string) :
  or_empty x = default "" x.
Proof.
  destruct x as [s|]; simpl; [|done].
  destruct (String.eqb_spec s ""); by subst.
Qed.

(** ** The listing *)

#[local] Instance newer_first_total : Total newer_first.
Proof. intros u v. unfold newer_first. lia. Qed.

#[local] Instance newer_first_trans : Transitive newer_first.
Proof. intros u v x. unfold newer_first. lia. Qed.

Section merge_sort_fmap.
Context {A : Type} (R : relation A) `{∀ x y, Decision (R x y)}.
Context (f : A → A) (Hf : ∀ x y, R (f x) (f y) ↔ R x y).

Local Abbreviation stack_fmap := (List.map (option_map (List.map f))).

Lemma list_merge_fmap (l1 l2 : list A) :
  list_merge R (f <$> l1) (f <$> l2) = f <$> list_merge R l1 l2.
Proof.
  revert l2. induction l1 as [|x1 l1 IH1]; intros l2; [by destruct l2|].
  induction l2 as [|x2 l2 IH2]; [done|].
  cbn [fmap list_fmap] in *. simpl.
  destruct (decide (R (f x1) (f x2))) as [Hd|Hd],
           (decide (R x1 x2)) as [Hd'|Hd'];
    try (by destruct Hd'; apply Hf);
    try (by destruct Hd; apply Hf).
  - cbn [fmap list_fmap]. f_equal. apply (IH1 (x2 :: l2)).
  - cbn [fmap list_fmap]. f_equal. apply IH2.
Qed.

Lemma merge_list_to_stack_fmap (st : list (option (list A))) (l : list A) :
  merge_list_to_stack R (stack_fmap st) (f <$> l)
  = stack_fmap (merge_list_to_stack R st l).
Proof.
  revert l. induction st as [|[l'|] st IH]; intros l; simpl; [done| |done].
  f_equal. rewrite list_merge_fmap. apply IH.
Qed.

Lemma merge_stack_fmap (st : list (option (list A))) :
  merge_stack R (stack_fmap st) = f <$> merge_stack R st.
Proof.
  induction st as [|[l|] st IH]; simpl; [done| |done].
  rewrite IH. apply list_merge_fmap.
Qed.

Lemma merge_sort_aux_fmap (st : list (option (list A))) (l : list A) :
  merge_sort_aux R (stack_fmap st) (f <$> l)
  = f <$> merge_sort_aux R st l.
Proof.
  revert st. induction l as [|x l IH]; intros st; simpl.
  - apply merge_stack_fmap.
  - rewrite <- IH. f_equal. apply (merge_list_to_stack_fmap st [x]).
Qed.

Lemma merge_sort_fmap (l : list A) :
  merge_sort R (f <$> l) = f <$> merge_sort R l.
Proof. apply (merge_sort_aux_fmap [] l). Qed.
End merge_sort_fmap.

(** ** Running the views *)

Lemma truthy_obj_lookup (o : gmap string json) (k : string) (v : json) :
  o !! k = Some v → truthy (JObj o) = true.
Proof.
  intros H. simpl. apply negb_true_iff, Nat.eqb_neq.
  apply map_size_ne_0_lookup. eauto.
Qed.

Lemma truthy_str (s : string) : truthy (JStr s) = true ↔ s ≠ "".
Proof. simpl. by rewrite negb_true_iff, String.eqb_neq. Qed.

Lemma truthy_get_str (o : gmap string json) (k s : string) :
  o !! k = Some (JStr s) → s ≠ "" → truthy_get o k = true.
Proof. intros H Hs. unfold truthy_get. rewrite H. by apply truthy_str. Qed.

Lemma truthy_get_missing (o : gmap string json) (k : string) :
  o !! k = None → truthy_get o k = false.
Proof. intros H. unfold truthy_get. by rewrite H. Qed.

Ltac world_simpl :=
  cbn [run mbind mret M_bind M_ret raise try_except
       get_db_connection begin_statement execute_select_by_email
       execute_select_name_email execute_insert commit rollback close
       flash render_template_string
       db_up table next_id clock conns next_conn flashes trace
       set_table set_next_id set_conns set_next_conn set_flashes record
       set_txn set_outside fst snd negb orb andb app
       existsb statement_params].

Ltac run_step :=
  repeat (world_simpl;
          rewrite ?lookup_insert_eq, ?lookup_delete_eq, ?insert_insert_eq,
                  ?delete_insert_eq, ?app_nil_r, <- ?app_assoc).

(** Worlds are taken apart at the start of a proof, so that the setters
    compute. *)
Ltac open_world w :=
  destruct w as [up t n c cs nc fl tr];
  cbn [db_up table next_id clock conns next_conn flashes trace] in *;
  subst.

Section Properties.

Set Default Proof Using "Type".

Variable ADMIN_PASSWORD : string.
Variable generate_password_hash : string → string → string.
Variable check_password_hash : string → json → outcome bool.

Local Abbreviation login := (login check_password_hash).
Local Abbreviation post_login := (post_login check_password_hash).
Local Abbreviation admin := (admin ADMIN_PASSWORD generate_password_hash).

(** Validation fails: the answer is the 400, and nothing has happened. *)
Lemma login_invalid (data : json) (w : World) :
  truthy data = false ∨
  (∃ o, data = JObj o ∧
        (truthy_get o "email" = false ∨ truthy_get o "password" = false)) →
  run (login data) w = (Returned bad_request, w).
Proof.
  intros [H | (o & -> & H)]; unfold login.
  - by rewrite H.
  - destruct (truthy (JObj o)); [|done]. cbn [negb].
    by destruct H as [-> | ->]; rewrite ?orb_true_r.
Qed.

(** Validation passes and the connection cannot be opened. *)
Lemma login_no_connection (o : gmap string json) (w : World) :
  truthy_get o "email" = true → truthy_get o "password" = true →
  db_up w = false →
  run (login (JObj o)) w
  = (Returned connection_error, record (EvConnect false) w).
Proof.
  intros He Hp Hup. open_world w. unfold login.
  assert (truthy (JObj o) = true) as ->.
  { unfold truthy_get in He. destruct (o !! "email") eqn:E; [|done].
    by eapply truthy_obj_lookup. }
  rewrite He, Hp. by run_step.
Qed.

(** Validation passes with two strings, the connection is opened and the
    driver accepts the email: the row is looked up, the connection closed,
    the password checked. *)
Lemma login_lookup (o : gmap string json) (e p : string) (w : World) :
  o !! "email" = Some (JStr e) → o !! "password" = Some (JStr p) →
  e ≠ "" → p ≠ "" → has_nul e = false → db_up w = true →
  run (login (JObj o)) w
  = (match select_by_email e (table w) with
     | Some u =>
         match check_password_hash (users.password_hash u) (JStr p) with
         | Returned true => Returned (login_ok u)
         | Returned false => Returned invalid_credentials
         | Raised ex => Raised ex
         end
     | None => Returned invalid_credentials
     end,
     mkWorld true (table w) (next_id w) (clock w)
             (delete (next_conn w) (conns w)) (S (next_conn w)) (flashes w)
             (trace w ++ [EvConnect true;
                          EvExecute (next_conn w) (SelectByEmail e);
                          EvClose (next_conn w)])).
Proof.
  intros He Hp Hne Hnp Hnul Hup. open_world w. unfold login.
  rewrite (truthy_obj_lookup o _ _ He).
  rewrite (truthy_get_str o _ _ He Hne), (truthy_get_str o _ _ Hp Hnp).
  rewrite He, Hp. unfold fetch_user, verify. run_step.
  rewrite Hnul. run_step.
  destruct (select_by_email e t) as [u|]; run_step; [|done].
  by destruct (check_password_hash _ _) as [[|]|].
Qed.

Lemma admin_no_connection (m : method) (form : gmap string string)
    (salt : string) (w : World) :
  db_up w = false →
  run (admin m form salt) w
  = (Returned (Response 500
                 (TextBody "Erro de conexão com a base de dados.")),
     record (EvConnect false) w).
Proof. intros Hup. open_world w. unfold admin. by run_step. Qed.

Lemma admin_get (form : gmap string string) (salt : string) (w : World) :
  db_up w = true →
  run (admin GET form salt) w
  = (Returned (Response 200
                 (HtmlPage (flashes w) (select_name_email (table w)))),
     mkWorld true (table w) (next_id w) (clock w)
             (delete (next_conn w) (conns w)) (S (next_conn w)) []
             (trace w ++ [EvConnect true;
                          EvExecute (next_conn w) SelectNameEmail;
                          EvClose (next_conn w)])).
Proof.
  intros Hup. open_world w. unfold admin. by run_step.
Qed.

(** The admin password is refused: the flash, the redirect, and the
    connection still open. *)
Lemma admin_post_refused (form : gmap string string) (salt : string)
    (w : World) :
  db_up w = true → admin_password_ok ADMIN_PASSWORD form = false →
  run (admin POST form salt) w
  = (Returned (Response 302 (Redirect "/admin")),
     mkWorld true (table w) (next_id w) (clock w)
             (<[next_conn w := TxIdle]> (conns w)) (S (next_conn w))
             (flashes w ++ [("error", "Senha de admin incorreta!")])
             (trace w ++ [EvConnect true;
                          EvFlash "error" "Senha de admin incorreta!"])).
Proof.
  intros Hup Hbad. open_world w. unfold admin, admin_post. rewrite Hbad.
  by run_step.
Qed.

(** The admin password is accepted and the three fields are there: the
    driver refuses a value that holds U+0000, and otherwise the outcome is
    that of the [INSERT]. *)
Lemma admin_post_create (form : gmap string string) (salt : string)
    (nm em pw : string) (w : World) :
  db_up w = true → admin_password_ok ADMIN_PASSWORD form = true →
  form !! "name" = Some nm → form !! "email" = Some em →
  form !! "password" = Some pw →
  let h := next_conn w in
  let ph := generate_password_hash salt pw in
  let after (t : list users.row) (n : Z) (tr : list event) :=
    mkWorld true t n (clock w) (delete h (conns w)) (S h) []
            (trace w ++ [EvConnect true; EvExecute h (InsertUser nm em ph)]
                     ++ tr ++ [EvExecute h SelectNameEmail; EvClose h]) in
  let page (category message : string) (t : list users.row) :=
    Returned (Response 200
      (HtmlPage (flashes w ++ [(category, message)])
                (select_name_email t))) in
  run (admin POST form salt) w
  = if existsb has_nul [nm; em; ph] then
      let message :=
        "Ocorreu um erro: " +:+
        "A string literal cannot contain NUL (0x00) characters." in
      (page "error" message (table w),
       after (table w) (next_id w) [EvRollback h; EvFlash "error" message])
    else
    match insert_user (table w) (next_id w) (clock w) nm em ph with
    | Inserted r =>
        let message := "Utilizador " +:+ em +:+ " criado com sucesso!" in
        (page "success" message (table w ++ [r]),
         after (table w ++ [r]) (next_id w + 1)%Z
               [EvCommit h; EvFlash "success" message])
    | UniqueViolation =>
        let message := "O email " +:+ em +:+ " já existe." in
        (page "error" message (table w),
         after (table w) (next_id w + 1)%Z
               [EvRollback h; EvFlash "error" message])
    | StringTooLong ty =>
        let message :=
          "Ocorreu um erro: " +:+
          ("value too long for type " +:+ ty +:+ LF) in
        (page "error" message (table w),
         after (table w) (next_id w)
               [EvRollback h; EvFlash "error" message])
    end.
Proof.
  intros Hup Hok Hnm Hem Hpw. cbv zeta. open_world w.
  unfold admin, admin_post, create_user, form_item.
  rewrite Hok, Hnm, Hem, Hpw. run_step.
  destruct (has_nul nm || (has_nul em || (has_nul _ || false)));
    run_step; [done|].
  by destruct (insert_user t n c nm em _) as [r | | ty]; run_step.
Qed.

(** The admin password is accepted and a field of the form is missing:
    [request.form[...]] raises, with the connection open. *)
Lemma admin_post_missing (form : gmap string string) (salt : string)
    (w : World) :
  db_up w = true → admin_password_ok ADMIN_PASSWORD form = true →
  form !! "name" = None ∨ form !! "email" = None ∨
  form !! "password" = None →
  ∃ key,
    run (admin POST form salt) w
    = (Raised (BadRequestKeyError key),
       mkWorld true (table w) (next_id w) (clock w)
               (<[next_conn w := TxIdle]> (conns w)) (S (next_conn w))
               (flashes w) (trace w ++ [EvConnect true])).
Proof.
  intros Hup Hok Hmiss. open_world w.
  unfold admin, admin_post, create_user, form_item. rewrite Hok.
  destruct (form !! "name") as [nm|] eqn:Hnm;
    [|exists "name"; by run_step].
  destruct (form !! "email") as [em|] eqn:Hem;
    [|exists "email"; by run_step].
  destruct (form !! "password") as [pw|] eqn:Hpw;
    [|exists "password"; by run_step].
  destruct Hmiss as [?|[?|?]]; congruence.
Qed.

(** Validation passes and the connection is opened.  What follows
    depends on the two values: the lookup needs a string, which the driver
    refuses when it holds U+0000, and the check of the password is reached
    only when a row was found. *)
Lemma login_connected (o : gmap string json) (w : World) :
  truthy_get o "email" = true → truthy_get o "password" = true →
  db_up w = true →
  let h := next_conn w in
  run (login (JObj o)) w
  = match o !! "email" with
    | Some (JStr e) =>
        let w' :=
          mkWorld true (table w) (next_id w) (clock w)
                  (delete h (conns w)) (S h) (flashes w)
                  (trace w ++ [EvConnect true;
                               EvExecute h (SelectByEmail e); EvClose h]) in
        if has_nul e then
          (Raised (ValueError
             "A string literal cannot contain NUL (0x00) characters."),
           mkWorld true (table w) (next_id w) (clock w)
                   (<[h := TxIdle]> (conns w)) (S h) (flashes w)
                   (trace w ++ [EvConnect true;
                                EvExecute h (SelectByEmail e)]))
        else
        match select_by_email e (table w), o !! "password" with
        | None, _ => (Returned invalid_credentials, w')
        | Some u, Some v =>
            (match check_password_hash (users.password_hash u) v with
             | Returned true => Returned (login_ok u)
             | Returned false => Returned invalid_credentials
             | Raised ex => Raised ex
             end, w')
        | Some u, None => (Raised (KeyError "password"), w')
        end
    | _ =>
        (Raised ProgrammingError,
         mkWorld true (table w) (next_id w) (clock w)
                 (<[h := TxIdle]> (conns w)) (S h) (flashes w)
                 (trace w ++ [EvConnect true]))
    end.
Proof.
  intros He Hp Hup. cbv zeta. open_world w. unfold login.
  assert (truthy (JObj o) = true) as ->.
  { unfold truthy_get in He. destruct (o !! "email") eqn:E; [|done].
    by eapply truthy_obj_lookup. }
  rewrite He, Hp. unfold fetch_user, verify. run_step.
  destruct (o !! "email") as [[| | |e| |]|]; run_step; try done.
  destruct (has_nul e); run_step; [done|].
  destruct (select_by_email e t) as [u|]; run_step; [|done].
  destruct (o !! "password") as [v|]; run_step; [|done].
  by destruct (check_password_hash _ v) as [[|]|].
Qed.

(** The four ways through [login]. *)
Lemma login_cases (data : json) (w : World) :
  run (login data) w = (Returned bad_request, w) ∨
  run (login data) w = (Raised AttributeError, w) ∨
  ∃ o, data = JObj o ∧
       truthy_get o "email" = true ∧ truthy_get o "password" = true.
Proof.
  destruct (truthy data) eqn:Ht.
  - destruct data as [| | | | |o];
      try (right; left; unfold login; by rewrite Ht).
    destruct (truthy_get o "email") eqn:He;
      [|left; apply login_invalid; right; eauto].
    destruct (truthy_get o "password") eqn:Hp;
      [|left; apply login_invalid; right; eauto].
    right; right; eauto.
  - left. apply login_invalid. by left.
Qed.

(** Whatever the body, [login] leaves the table, the sequence and the
    session as they were. *)
Lemma login_frame (data : json) (w : World) :
  let w' := snd (run (login data) w) in
  table w' = table w ∧ next_id w' = next_id w ∧ flashes w' = flashes w.
Proof.
  cbv zeta.
  destruct (login_cases data w) as [-> | [-> | (o & -> & He & Hp)]];
    [done | done |].
  destruct (db_up w) eqn:Hup.
  - rewrite login_connected by done. cbv zeta.
    repeat case_match; done.
  - rewrite login_no_connection by done. by destruct w.
Qed.

(** A 200 comes from one place only. *)
Lemma login_200_inv (data : json) (w : World) :
  status (fst (serve (login data) w)) = 200%Z →
  ∃ o e v u,
    data = JObj o ∧
    o !! "email" = Some (JStr e) ∧ o !! "password" = Some v ∧
    db_up w = true ∧
    select_by_email e (table w) = Some u ∧
    check_password_hash (users.password_hash u) v = Returned true ∧
    fst (serve (login data) w) = login_ok u.
Proof.
  unfold serve.
  destruct (login_cases data w) as [-> | [-> | (o & -> & He & Hp)]];
    [done | done |].
  destruct (db_up w) eqn:Hup.
  - rewrite login_connected by done. cbv zeta.
    destruct (o !! "email") as [[| | |e| |]|] eqn:Hoe; try done.
    destruct (has_nul e); [done|].
    destruct (select_by_email e (table w)) as [u|] eqn:Hsel; [|done].
    destruct (o !! "password") as [v|] eqn:Hop; [|done].
    destruct (check_password_hash _ v) as [[|]|ex] eqn:Hck; cbn; try done;
      [intros _; by exists o, e, v, u | by destruct ex].
  - by rewrite login_no_connection.
Qed.

(** The five ways through [admin]. *)
Lemma admin_cases (m : method) (form : gmap string string) (w : World) :
  db_up w = false ∨
  (db_up w = true ∧ m = GET) ∨
  (db_up w = true ∧ m = POST ∧
   admin_password_ok ADMIN_PASSWORD form = false) ∨
  (db_up w = true ∧ m = POST ∧
   admin_password_ok ADMIN_PASSWORD form = true ∧
   (form !! "name" = None ∨ form !! "email" = None ∨
    form !! "password" = None)) ∨
  (db_up w = true ∧ m = POST ∧
   admin_password_ok ADMIN_PASSWORD form = true ∧
   ∃ nm em pw, form !! "name" = Some nm ∧ form !! "email" = Some em ∧
               form !! "password" = Some pw).
Proof.
  destruct (db_up w); [|by left].
  destruct m; [by right; left|].
  destruct (admin_password_ok ADMIN_PASSWORD form); [|by right; right; left].
  destruct (form !! "name") as [nm|];
    [|right; right; right; left; eauto 10].
  destruct (form !! "email") as [em|];
    [|right; right; right; left; eauto 10].
  destruct (form !! "password") as [pw|];
    [|right; right; right; left; eauto 10].
  right; right; right; right. eauto 10.
Qed.

Lemma admin_password_ok_spec (form : gmap string string) :
  admin_password_ok ADMIN_PASSWORD form = true
  ↔ form !! "admin_password" = Some ADMIN_PASSWORD.
Proof.
  unfold admin_password_ok.
  destruct (form !! "admin_password") as [s|]; [|done].
  rewrite String.eqb_eq. split; [by intros -> | by intros [= ->]].
Qed.

(** A row that [INSERT] accepts, from values that the driver let through,
    respects the schema and has an email that was not in the table. *)
Lemma insert_user_Inserted (t : list users.row) (n c : Z)
    (nm em ph : string) (r : users.row) :
  existsb has_nul [nm; em; ph] = false →
  insert_user t n c nm em ph = Inserted r →
  row_ok r ∧ select_by_email (users.email r) t = None ∧
  users.id r = n ∧ users.created_at r = c ∧ users.photo r = None.
Proof.
  intros (Hn1 & Hn2 & Hn3)%no_nul_params. unfold insert_user.
  destruct (varchar EMAIL_MAX em) as [em'|] eqn:Hem; [|done].
  destruct (varchar PASSWORD_HASH_MAX ph) as [ph'|] eqn:Hph; [|done].
  destruct (varchar NAME_MAX nm) as [nm'|] eqn:Hnm; [|done].
  destruct (select_by_email em' t) eqn:Hsel; [done|].
  intros [= <-]. unfold row_ok. simpl.
  repeat split; try done;
    first [by eapply varchar_length | by eapply varchar_nul].
Qed.

Lemma insert_user_fits (t : list users.row) (n c : Z) (nm em ph : string) :
  (String.length em ≤ EMAIL_MAX)%nat →
  (String.length ph ≤ PASSWORD_HASH_MAX)%nat →
  (String.length nm ≤ NAME_MAX)%nat →
  insert_user t n c nm em ph
  = match select_by_email em t with
    | Some _ => UniqueViolation
    | None => Inserted (users.Row n em ph (Some nm) None c)
    end.
Proof.
  intros Hem Hph Hnm. unfold insert_user.
  by rewrite !varchar_fits.
Qed.

(** What one request does to the table: nothing, or one more row. *)
Lemma admin_table (m : method) (form : gmap string string) (salt : string)
    (w : World) :
  let w' := snd (run (admin m form salt) w) in
  (table w' = table w) ∨
  (m = POST ∧ form !! "admin_password" = Some ADMIN_PASSWORD ∧
   ∃ r, table w' = table w ++ [r] ∧ row_ok r ∧
        select_by_email (users.email r) (table w) = None).
Proof.
  cbv zeta.
  destruct (admin_cases m form w)
    as [Hup | [[Hup ->] | [(Hup & -> & Hok) | [(Hup & -> & Hok & Hmiss)
         | (Hup & -> & Hok & nm & em & pw & Hnm & Hem & Hpw)]]]].
  - left. rewrite admin_no_connection by done. by destruct w.
  - left. by rewrite admin_get.
  - left. by rewrite admin_post_refused.
  - left. destruct (admin_post_missing form salt w Hup Hok Hmiss)
      as [key ->]. done.
  - rewrite (admin_post_create form salt nm em pw w) by done. cbv zeta.
    destruct (existsb has_nul _) eqn:Hnul; [by left|].
    destruct (insert_user _ _ _ _ _ _) as [r| |ty] eqn:Hins;
      [|by left|by left].
    right. split; [done|]. split; [by apply admin_password_ok_spec|].
    exists r. apply insert_user_Inserted in Hins as (? & ? & _); done.
Qed.

Lemma schema_ok_snoc (t : list users.row) (r : users.row) :
  schema_ok t → row_ok r → select_by_email (users.email r) t = None →
  schema_ok (t ++ [r]).
Proof.
  intros [Hrows Hdup] Hr Hnew. split.
  - apply Forall_app. split; [done | by apply Forall_singleton].
  - rewrite fmap_app. apply NoDup_app. split; [done|]. split.
    + intros e He Hin. apply list_elem_of_singleton in Hin as ->.
      by apply select_by_email_None in Hnew.
    + apply NoDup_singleton.
Qed.

Local Abbreviation step1 :=
  (step ADMIN_PASSWORD generate_password_hash check_password_hash).
Local Abbreviation stepn :=
  (steps ADMIN_PASSWORD generate_password_hash check_password_hash).

Lemma step_table (rq : request) (w : World) :
  table (step1 rq w) = table w ∨
  ∃ r, table (step1 rq w) = table w ++ [r] ∧ row_ok r ∧
       select_by_email (users.email r) (table w) = None.
Proof.
  destruct rq as [data | m form salt | up now]; unfold step.
  - left. unfold serve.
    pose proof (login_frame data w) as (Ht & _).
    by destruct (run (login data) w) as [[r|e] w'].
  - unfold serve.
    pose proof (admin_table m form salt w) as Ht.
    destruct (run (admin m form salt) w) as [[r|e] w'];
      (destruct Ht as [Ht | (_ & _ & Ht)]; [by left | by right]).
  - left. by destruct w.
Qed.

(** Rows are never removed nor changed: the table only grows at its
    end. *)
Lemma steps_table_grows (rqs : list request) (w : World) :
  ∃ more, table (stepn rqs w) = table w ++ more.
Proof.
  revert w. induction rqs as [|rq rqs IH]; intros w.
  - exists []. by rewrite app_nil_r.
  - unfold steps in *. simpl.
    destruct (IH (step1 rq w)) as [more Hmore]. rewrite Hmore.
    destruct (step_table rq w) as [-> | (r & -> & _)]; [by exists more|].
    exists (r :: more). by rewrite <- app_assoc.
Qed.

(** The schema is an invariant of the table. *)
Lemma steps_schema_ok (rqs : list request) (w : World) :
  schema_ok (table w) → schema_ok (table (stepn rqs w)).
Proof.
  revert w. induction rqs as [|rq rqs IH]; intros w Hok; [done|].
  unfold steps in *. simpl. apply IH.
  destruct (step_table rq w) as [-> | (r & -> & Hr & Hnew)]; [done|].
  by apply schema_ok_snoc.
Qed.

(** ** The login view *)

Lemma post_login_json (data : json) (w : World) :
  run (post_login (Json data)) w = run (login data) w.
Proof. unfold post_login. cbn. by destruct (run (login data) w) as [[r|e] w']. Qed.

(** C5, as the code has it.  A [POST /login] whose JSON body is [null],
    or is an object without the [email] key or without the [password]
    key, is answered with status 400 and the JSON body
    [{success: false, error: ...}].  A request that carries no JSON is
    refused by [get_json] itself, with 415, and with 400 when the body is
    announced as JSON and does not parse.  In all these cases the world
    after the request is the world before it: no connection was opened,
    no statement sent, nothing logged. *)
Theorem login_missing_field_is_400 (p : payload) (w : World) :
  (p = Json JNull ∨
   (∃ o, p = Json (JObj o) ∧
         (o !! "email" = None ∨ o !! "password" = None)) →
   serve (post_login p) w
   = (Response 400 (JsonBody (JObj {[
        "success" := JBool false;
        "error" := JStr "Email e senha são obrigatórios." ]})), w)) ∧
  (p = NotJson →
   serve (post_login p) w
   = (Response 415 (TextBody "Unsupported Media Type"), w)) ∧
  (p = BadJson →
   serve (post_login p) w = (Response 400 (TextBody "Bad Request"), w)).
Proof.
  split; [|split; by intros ->].
  intros H. unfold serve.
  assert (∃ data, p = Json data ∧
            (truthy data = false ∨
             ∃ o, data = JObj o ∧
                  (truthy_get o "email" = false ∨
                   truthy_get o "password" = false))) as (data & -> & Hd).
  { destruct H as [-> | (o & -> & H)]; [exists JNull; by auto|].
    exists (JObj o). split; [done|]. right. exists o. split; [done|].
    destruct H as [H|H]; [left|right]; by apply truthy_get_missing. }
  by rewrite post_login_json, login_invalid.
Qed.

(** C6, as the code has it.  When [email] and [password] are both
    non-empty strings, the email holds no U+0000, and the library can read
    the hash of the row that has this email, exactly one of three things
    happens: the
    connection cannot be opened and the answer is the 500; the connection
    is opened, no row has that email or the password does not verify
    against the stored hash, and the answer is the 401; the connection is
    opened, the row is found, the password verifies, and the answer is
    the 200. *)
Theorem login_status_by_cause (o : gmap string json) (e p : string)
    (w : World) :
  o !! "email" = Some (JStr e) → o !! "password" = Some (JStr p) →
  e ≠ "" → p ≠ "" → has_nul e = false →
  (∀ u, select_by_email e (table w) = Some u →
        ∃ b, check_password_hash (users.password_hash u) (JStr p) = Returned b) →
  let r := fst (serve (login (JObj o)) w) in
  (db_up w = false ∧ r = connection_error ∧ status r = 500%Z) ∨
  (db_up w = true ∧
   (select_by_email e (table w) = None ∨
    ∃ u, select_by_email e (table w) = Some u ∧
         check_password_hash (users.password_hash u) (JStr p) = Returned false) ∧
   r = invalid_credentials ∧ status r = 401%Z) ∨
  (db_up w = true ∧
   ∃ u, select_by_email e (table w) = Some u ∧
        check_password_hash (users.password_hash u) (JStr p) = Returned true ∧
        r = login_ok u ∧ status r = 200%Z).
Proof.
  intros He Hp Hne Hnp Hnul Hread. cbv zeta. unfold serve.
  destruct (db_up w) eqn:Hup.
  - rewrite (login_lookup o e p w) by done. right.
    destruct (select_by_email e (table w)) as [u|]; [|left; eauto].
    destruct (Hread u eq_refl) as [b Hck]. rewrite Hck.
    destruct b; [right | left]; eauto 10.
  - rewrite login_no_connection by eauto using truthy_get_str. by left.
Qed.

(** C7.  When [POST /login] answers 200, a row [u] of the table has the
    email of the request, and the body is
    [{success: true, user: {name, email, photo}}] with the name and the
    email of [u], and its photo, or the empty string when [u] has none.
    The keys of the two objects are these and no others: the hash of the
    password is not in the answer. *)
Theorem login_success_body (data : json) (w : World) :
  status (fst (serve (login data) w)) = 200%Z →
  ∃ (o : gmap string json) (e : string) (u : users.row),
    data = JObj o ∧ o !! "email" = Some (JStr e) ∧
    u ∈ table w ∧ users.email u = e ∧
    let profile : gmap string json :=
      {[ "name" := json_of_text (users.name u);
         "email" := JStr (users.email u);
         "photo" := JStr (default "" (users.photo u)) ]} in
    let answer : gmap string json :=
      {[ "success" := JBool true; "user" := JObj profile ]} in
    fst (serve (login data) w) = Response 200 (JsonBody (JObj answer)) ∧
    dom profile = {[ "name"; "email"; "photo" ]} ∧
    dom answer = {[ "success"; "user" ]} ∧
    profile !! "password_hash" = None.
Proof.
  intros H.
  apply login_200_inv in H as (o & e & p & u & -> & He & _ & _ & Hsel & _ & ->).
  apply select_by_email_Some in Hsel as [Hin Heq].
  exists o, e, u. repeat split; try done.
  unfold login_ok, user_profile. by rewrite or_empty_default.
Qed.

(** Where the answers to two failed logins do coincide: each request has
    a non-empty string for [email] and for [password], and the driver
    accepts the emails; one request names a row of the table and gives a
    password that does not verify, the other names no row. *)
Lemma failed_logins_look_alike (o1 o2 : gmap string json)
    (e1 p1 e2 p2 : string) (u : users.row) (w : World) :
  o1 !! "email" = Some (JStr e1) → o1 !! "password" = Some (JStr p1) →
  o2 !! "email" = Some (JStr e2) → o2 !! "password" = Some (JStr p2) →
  e1 ≠ "" → p1 ≠ "" → e2 ≠ "" → p2 ≠ "" →
  has_nul e1 = false → has_nul e2 = false →
  select_by_email e1 (table w) = Some u →
  check_password_hash (users.password_hash u) (JStr p1) = Returned false →
  select_by_email e2 (table w) = None →
  fst (serve (login (JObj o1)) w) = fst (serve (login (JObj o2)) w) ∧
  (db_up w = true →
   fst (serve (login (JObj o1)) w)
   = Response 401 (JsonBody (JObj {[
       "success" := JBool false;
       "error" := JStr "Credenciais inválidas." ]}))).
Proof.
  intros He1 Hp1 He2 Hp2 Hne1 Hnp1 Hne2 Hnp2 Hn1 Hn2 Hsel1 Hck Hsel2.
  unfold serve. destruct (db_up w) eqn:Hup.
  - rewrite (login_lookup o1 e1 p1 w), (login_lookup o2 e2 p2 w) by done.
    by rewrite Hsel1, Hck, Hsel2.
  - rewrite !login_no_connection by eauto using truthy_get_str. done.
Qed.

(** C3 fails here.  Two [POST /login] requests in the same world, with the
    connection opened, carry the same password, a JSON number other than
    zero, which is not the password of anybody.  The one whose email names
    a row of the table is answered with Flask's 500, because
    [check_password_hash] is reached with the number and raises, as the
    library does when it is asked to encode a password that is not a
    string; the one whose email names no row is answered with the 401.
    The two answers differ, and tell which of the two emails has an
    account. *)
Theorem number_password_tells_known_from_unknown (o1 o2 : gmap string json)
    (e1 e2 : string) (n : Z) (u : users.row) (w : World) :
  db_up w = true →
  o1 !! "email" = Some (JStr e1) → o1 !! "password" = Some (JNum n) →
  o2 !! "email" = Some (JStr e2) → o2 !! "password" = Some (JNum n) →
  e1 ≠ "" → e2 ≠ "" → n ≠ 0%Z →
  has_nul e1 = false → has_nul e2 = false →
  select_by_email e1 (table w) = Some u →
  check_password_hash (users.password_hash u) (JNum n) = Raised AttributeError →
  select_by_email e2 (table w) = None →
  fst (serve (login (JObj o1)) w)
  = Response 500 (TextBody "Internal Server Error") ∧
  fst (serve (login (JObj o2)) w)
  = Response 401 (JsonBody (JObj {[
      "success" := JBool false;
      "error" := JStr "Credenciais inválidas." ]})) ∧
  fst (serve (login (JObj o1)) w) ≠ fst (serve (login (JObj o2)) w).
Proof.
  intros Hup He1 Hp1 He2 Hp2 Hne1 Hne2 Hn Hn1 Hn2 Hsel1 Hck Hsel2.
  assert (truthy (JNum n) = true) as Htn.
  { simpl. apply negb_true_iff, Z.eqb_neq. done. }
  assert (∀ o : gmap string json,
            o !! "password" = Some (JNum n) →
            truthy_get o "password" = true) as Hpw.
  { intros o Ho. unfold truthy_get. by rewrite Ho. }
  unfold serve.
  rewrite (login_connected o1 w), (login_connected o2 w)
    by eauto using truthy_get_str.
  cbv zeta. rewrite He1, He2, Hn1, Hn2, Hsel1, Hsel2, Hp1, Hck. done.
Qed.

(** ** The admin view *)

(** C8.  For every table [t], the listing query returns the pairs
    (name, email) of the rows of [t], all of them and each once, the row
    created later first.  It does not depend on the hashes nor on the
    photos: changing them in the rows changes nothing in the result.  And
    the listing of every page that [admin] renders is the result of the
    query on the table as the request leaves it. *)
Theorem admin_listing_newest_first (t : list users.row) :
  (∃ rows, rows ≡ₚ t ∧ StronglySorted newer_first rows ∧
           select_name_email t
           = (λ u, (users.name u, users.email u)) <$> rows) ∧
  (∀ f : users.row → users.row,
     (∀ u, users.name (f u) = users.name u ∧
           users.email (f u) = users.email u ∧
           users.created_at (f u) = users.created_at u) →
     select_name_email (f <$> t) = select_name_email t) ∧
  (∀ m form salt w messages listing,
     content (fst (serve (admin m form salt) w)) = HtmlPage messages listing →
     table (snd (serve (admin m form salt) w)) = t →
     listing = select_name_email t).
Proof.
  split; [|split].
  - exists (merge_sort newer_first t).
    split; [apply merge_sort_Permutation|].
    split; [apply (StronglySorted_merge_sort _) | done].
  - intros f Hf. unfold select_name_email.
    rewrite (merge_sort_fmap newer_first f).
    + rewrite <- list_fmap_compose. apply list_fmap_ext.
      intros i u _. unfold listing_of. simpl.
      destruct (Hf u) as (-> & -> & _). done.
    + intros x y. unfold newer_first.
      destruct (Hf x) as (_ & _ & ->), (Hf y) as (_ & _ & ->). done.
  - intros m form salt w messages listing Hpage <-.
    revert Hpage. unfold serve.
    destruct (admin_cases m form w)
      as [Hup | [[Hup ->] | [(Hup & -> & Hok) | [(Hup & -> & Hok & Hmiss)
           | (Hup & -> & Hok & nm & em & pw & Hnm & Hem & Hpw)]]]].
    + by rewrite admin_no_connection.
    + rewrite admin_get by done. simpl. by intros [= _ <-].
    + by rewrite admin_post_refused.
    + destruct (admin_post_missing form salt w Hup Hok Hmiss)
        as [key ->]. done.
    + rewrite (admin_post_create form salt nm em pw w) by done. cbv zeta.
      destruct (existsb has_nul _); [simpl; by intros [= _ <-]|].
      destruct (insert_user _ _ _ _ _ _); simpl; by intros [= _ <-].
Qed.

(** C10.  No [POST /login] and no [GET /admin] changes the table (nor
    the sequence of the ids); a request to [admin] after which the table
    differs is a [POST] that carries the admin password. *)
Theorem only_admin_post_changes_users :
  (∀ data w,
     table (snd (serve (login data) w)) = table w ∧
     next_id (snd (serve (login data) w)) = next_id w) ∧
  (∀ form salt w,
     table (snd (serve (admin GET form salt) w)) = table w ∧
     next_id (snd (serve (admin GET form salt) w)) = next_id w) ∧
  (∀ m form salt w,
     table (snd (serve (admin m form salt) w)) = table w ∨
     (m = POST ∧ form !! "admin_password" = Some ADMIN_PASSWORD)).
Proof.
  split; [|split].
  - intros data w. unfold serve.
    pose proof (login_frame data w) as (Ht & Hn & _).
    by destruct (run (login data) w) as [[r|e] w'].
  - intros form salt w. unfold serve.
    destruct (db_up w) eqn:Hup.
    + by rewrite admin_get.
    + rewrite admin_no_connection by done. by destruct w.
  - intros m form salt w. unfold serve.
    pose proof (admin_table m form salt w) as Ht.
    destruct (run (admin m form salt) w) as [[r|e] w'];
      (destruct Ht as [Ht | (? & ? & _)]; [by left | by right]).
Qed.

(** C9 fails on this path.  A [POST /admin] whose admin password is
    refused returns the redirect while the connection it opened is still
    open: nothing was closed. *)
Theorem admin_refused_keeps_connection_open (form : gmap string string)
    (salt : string) (w : World) :
  db_up w = true → form !! "admin_password" ≠ Some ADMIN_PASSWORD →
  let r := fst (serve (admin POST form salt) w) in
  let w' := snd (serve (admin POST form salt) w) in
  r = Response 302 (Redirect "/admin") ∧
  conns w' !! next_conn w = Some TxIdle ∧
  trace w' = trace w ++ [EvConnect true;
                         EvFlash "error" "Senha de admin incorreta!"] ∧
  EvClose (next_conn w) ∉ [EvConnect true;
                           EvFlash "error" "Senha de admin incorreta!"].
Proof.
  intros Hup Hbad. cbv zeta. unfold serve.
  rewrite admin_post_refused; [|done|].
  - simpl. rewrite lookup_insert_eq. repeat split; try done.
    rewrite !not_elem_of_cons. repeat split; try done. apply not_elem_of_nil.
  - destruct (admin_password_ok _ form) eqn:Hok; [|done].
    by apply admin_password_ok_spec in Hok.
Qed.

(** On the other paths that return, the connection of the request is
    closed: [login] after its lookup, [admin] after its listing. *)
Lemma connection_closed_elsewhere (w : World) :
  db_up w = true →
  (∀ o e p, o !! "email" = Some (JStr e) → o !! "password" = Some (JStr p) →
            e ≠ "" → p ≠ "" → has_nul e = false →
            conns (snd (serve (login (JObj o)) w)) !! next_conn w = None) ∧
  (∀ form salt,
     conns (snd (serve (admin GET form salt) w)) !! next_conn w = None) ∧
  (∀ form salt nm em pw,
     admin_password_ok ADMIN_PASSWORD form = true →
     form !! "name" = Some nm → form !! "email" = Some em →
     form !! "password" = Some pw →
     conns (snd (serve (admin POST form salt) w)) !! next_conn w = None).
Proof.
  intros Hup. unfold serve. repeat split.
  - intros o e p He Hp Hne Hnp Hnul.
    rewrite (login_lookup o e p w) by done.
    destruct (select_by_email e (table w)) as [u|];
      [destruct (check_password_hash _ _) as [[|]|] |];
      apply lookup_delete_eq.
  - intros form salt. rewrite admin_get by done. apply lookup_delete_eq.
  - intros form salt nm em pw Hok Hnm Hem Hpw.
    rewrite (admin_post_create form salt nm em pw w) by done. cbv zeta.
    destruct (existsb has_nul _); [apply lookup_delete_eq|].
    destruct (insert_user _ _ _ _ _ _); apply lookup_delete_eq.
Qed.

Lemma admin_password_refused (form : gmap string string) :
  form !! "admin_password" ≠ Some ADMIN_PASSWORD →
  admin_password_ok ADMIN_PASSWORD form = false.
Proof.
  intros Hbad. destruct (admin_password_ok _ form) eqn:Hok; [|done].
  by apply admin_password_ok_spec in Hok.
Qed.

(** C2, as the code has it.  A [POST /admin] whose [admin_password] is
    not the configured one (or is missing) inserts no row and uses no id,
    whatever the other fields are.  When the connection was opened, the
    view flashes one message of category [error] and redirects to
    [/admin], and between the connection and the flash it does nothing to
    the database; when the connection could not be opened, the answer is
    the plain 500 and nothing is flashed. *)
Theorem admin_refused_inserts_nothing (form : gmap string string)
    (salt : string) (w : World) :
  form !! "admin_password" ≠ Some ADMIN_PASSWORD →
  let r := fst (serve (admin POST form salt) w) in
  let w' := snd (serve (admin POST form salt) w) in
  table w' = table w ∧ next_id w' = next_id w ∧
  (db_up w = true →
   r = Response 302 (Redirect "/admin") ∧
   flashes w' = flashes w ++ [("error", "Senha de admin incorreta!")] ∧
   trace w' = trace w ++ [EvConnect true;
                          EvFlash "error" "Senha de admin incorreta!"]) ∧
  (db_up w = false →
   r = Response 500 (TextBody "Erro de conexão com a base de dados.") ∧
   flashes w' = flashes w).
Proof.
  intros Hbad. apply admin_password_refused in Hbad.
  cbv zeta. unfold serve. destruct (db_up w) eqn:Hup.
  - rewrite admin_post_refused by done. done.
  - rewrite admin_no_connection by done. by destruct w.
Qed.

(** C4, as the code has it.  The table respects the schema and has a
    row [u] with the email of the form; the connection is opened, the
    admin password is the right one and the three fields are there.
    Then the [INSERT] fails, the transaction is rolled back and only then
    is a message of category [error] flashed, the page is rendered, the
    table is what it was and [u] is still the row of that email.  When
    moreover the name and the hash fit their columns and hold no U+0000,
    the message is the one of the duplicate email. *)
Theorem duplicate_email_is_refused (form : gmap string string)
    (salt nm em pw : string) (u : users.row) (w : World) :
  db_up w = true →
  form !! "admin_password" = Some ADMIN_PASSWORD →
  form !! "name" = Some nm → form !! "email" = Some em →
  form !! "password" = Some pw →
  schema_ok (table w) →
  select_by_email em (table w) = Some u →
  let h := next_conn w in
  let ph := generate_password_hash salt pw in
  let r := fst (serve (admin POST form salt) w) in
  let w' := snd (serve (admin POST form salt) w) in
  (∃ message,
     r = Response 200 (HtmlPage (flashes w ++ [("error", message)])
                                (select_name_email (table w))) ∧
     trace w' = trace w ++ [EvConnect true;
                            EvExecute h (InsertUser nm em ph);
                            EvRollback h;
                            EvFlash "error" message;
                            EvExecute h SelectNameEmail;
                            EvClose h] ∧
     ((String.length nm ≤ NAME_MAX)%nat → has_nul nm = false →
      (String.length ph ≤ PASSWORD_HASH_MAX)%nat → has_nul ph = false →
      message = "O email " +:+ em +:+ " já existe.")) ∧
  table w' = table w ∧
  select_by_email em (table w') = Some u.
Proof.
  intros Hup Hok Hnm Hem Hpw [Hrows _] Hsel. cbv zeta. unfold serve.
  apply admin_password_ok_spec in Hok.
  rewrite (admin_post_create form salt nm em pw w) by done. cbv zeta.
  assert ((String.length em ≤ EMAIL_MAX)%nat ∧ has_nul em = false)
    as [Hlen Hnul].
  { apply select_by_email_Some in Hsel as [Hin <-].
    rewrite Forall_forall in Hrows. by apply Hrows. }
  destruct (existsb has_nul _) eqn:Hn.
  { simpl. repeat split; try done.
    eexists. repeat split; try done.
    intros _ Hn1 _ Hn3. exfalso.
    assert (existsb has_nul [nm; em; generate_password_hash salt pw] = false)
      as Hn' by by apply no_nul_params.
    by rewrite Hn in Hn'. }
  destruct (insert_user _ _ _ _ _ _) as [r| |ty] eqn:Hins.
  - exfalso. revert Hins. unfold insert_user.
    rewrite (varchar_fits _ em Hlen), Hsel.
    by repeat case_match.
  - simpl. repeat split; try done.
    eexists. repeat split; done.
  - simpl. repeat split; try done.
    eexists. repeat split; try done.
    intros Hl1 _ Hl3 _. exfalso. revert Hins.
    rewrite insert_user_fits by done. by rewrite Hsel.
Qed.

(** C1, as the code has it.  The connection is opened, the form carries
    the admin password, a name of at most 100 characters, a non-empty
    email of at most 120 characters that no row has, and a non-empty
    password whose hash fits the 256 characters of its column; neither the
    name nor the email nor the hash holds U+0000; the library verifies
    the hashes it generates.  Then the view inserts and
    commits one row, and renders the page with the message of success;
    a [POST /login] with that email and that password, right after or
    after any further requests, answers 200 with the profile of the new
    user whenever the connection is opened. *)
Theorem created_user_logs_in (form : gmap string string)
    (salt nm em pw : string) (w : World) :
  (∀ s p, check_password_hash (generate_password_hash s p) (JStr p) = Returned true) →
  db_up w = true →
  form !! "admin_password" = Some ADMIN_PASSWORD →
  form !! "name" = Some nm → form !! "email" = Some em →
  form !! "password" = Some pw →
  em ≠ "" → pw ≠ "" →
  (String.length nm ≤ NAME_MAX)%nat →
  (String.length em ≤ EMAIL_MAX)%nat →
  (String.length (generate_password_hash salt pw)
   ≤ PASSWORD_HASH_MAX)%nat →
  has_nul nm = false → has_nul em = false →
  has_nul (generate_password_hash salt pw) = false →
  select_by_email em (table w) = None →
  let h := next_conn w in
  let ph := generate_password_hash salt pw in
  let row := users.Row (next_id w) em ph (Some nm) None (clock w) in
  let message := "Utilizador " +:+ em +:+ " criado com sucesso!" in
  let welcome :=
    Response 200 (JsonBody (JObj {[
      "success" := JBool true;
      "user" := JObj {[ "name" := JStr nm; "email" := JStr em;
                        "photo" := JStr "" ]} ]})) in
  let r := fst (serve (admin POST form salt) w) in
  let w' := snd (serve (admin POST form salt) w) in
  r = Response 200 (HtmlPage (flashes w ++ [("success", message)])
                             (select_name_email (table w ++ [row]))) ∧
  table w' = table w ++ [row] ∧
  trace w' = trace w ++ [EvConnect true;
                         EvExecute h (InsertUser nm em ph);
                         EvCommit h;
                         EvFlash "success" message;
                         EvExecute h SelectNameEmail;
                         EvClose h] ∧
  fst (serve (login (credentials em pw)) w') = welcome ∧
  (∀ rqs o,
     o !! "email" = Some (JStr em) → o !! "password" = Some (JStr pw) →
     db_up (stepn rqs w') = true →
     fst (serve (login (JObj o)) (stepn rqs w')) = welcome).
Proof.
  intros Hlib Hup Hok Hnm Hem Hpw Hne Hnp Hln Hle Hlp Hn1 Hn2 Hn3 Hnew.
  cbv zeta.
  apply admin_password_ok_spec in Hok.
  set (row := users.Row (next_id w) em (generate_password_hash salt pw)
                        (Some nm) None (clock w)).
  set (w1 := mkWorld true (table w ++ [row]) (next_id w + 1)%Z (clock w)
               (delete (next_conn w) (conns w)) (S (next_conn w)) []
               (trace w ++
                [EvConnect true;
                 EvExecute (next_conn w)
                   (InsertUser nm em (generate_password_hash salt pw));
                 EvCommit (next_conn w);
                 EvFlash "success"
                   ("Utilizador " +:+ em +:+ " criado com sucesso!");
                 EvExecute (next_conn w) SelectNameEmail;
                 EvClose (next_conn w)])).
  assert (serve (admin POST form salt) w
          = (Response 200
               (HtmlPage
                  (flashes w ++
                   [("success",
                     "Utilizador " +:+ em +:+ " criado com sucesso!")])
                  (select_name_email (table w ++ [row]))), w1)) as ->.
  { unfold serve.
    rewrite (admin_post_create form salt nm em pw w) by done. cbv zeta.
    rewrite (proj2 (no_nul_params _ _ _)) by done.
    rewrite insert_user_fits by done. by rewrite Hnew. }
  assert (∀ w2 o, o !! "email" = Some (JStr em) →
                  o !! "password" = Some (JStr pw) →
                  db_up w2 = true →
                  select_by_email em (table w2) = Some row →
                  fst (serve (login (JObj o)) w2) = login_ok row) as Hlogin.
  { intros w2 o Hoe Hop Hup2 Hsel. unfold serve.
    rewrite (login_lookup o em pw w2) by done. rewrite Hsel. simpl.
    by rewrite Hlib. }
  assert (select_by_email em (table w1) = Some row) as Hsel.
  { simpl. rewrite select_by_email_app_None by done.
    apply (select_by_email_singleton row). }
  cbn [fst snd]. repeat split; try done.
  - by apply Hlogin.
  - intros rqs o Hoe Hop Hup2. apply Hlogin; try done.
    destruct (steps_table_grows rqs w1) as [more ->].
    by apply select_by_email_app_Some.
Qed.

End Properties.

(** ** The views on concrete requests *)

Lemma demo_hash_verifies (s p : string) :
  demo_check (demo_generate s p) (JStr p) = Returned true.
Proof. unfold demo_check, demo_generate. by rewrite String.eqb_refl. Qed.

(** The example of the specification: Ana is created, listed, and logs
    in with her password and not with another. *)
Example ana_is_created_listed_and_logs_in :
  serve (admin "admin123" demo_generate POST
           (filled_form "Ana" "ana@x.com" "secret1" "admin123") "")
        (empty_world true)
  = (Response 200
       (HtmlPage [("success", "Utilizador ana@x.com criado com sucesso!")]
                 [(Some "Ana", "ana@x.com")]),
     mkWorld true [ana] 2 0 ∅ 1 []
       [EvConnect true;
        EvExecute 0 (InsertUser "Ana" "ana@x.com" (demo_generate "" "secret1"));
        EvCommit 0;
        EvFlash "success" "Utilizador ana@x.com criado com sucesso!";
        EvExecute 0 SelectNameEmail; EvClose 0]) ∧
  fst (serve (login demo_check (credentials "ana@x.com" "secret1"))
             (ana_world true))
  = Response 200 (JsonBody (JObj {[
      "success" := JBool true;
      "user" := JObj {[ "name" := JStr "Ana"; "email" := JStr "ana@x.com";
                        "photo" := JStr "" ]} ]})) ∧
  fst (serve (login demo_check (credentials "ana@x.com" "wrong"))
             (ana_world true))
  = Response 401 (JsonBody (JObj {[
      "success" := JBool false;
      "error" := JStr "Credenciais inválidas." ]})).
Proof. repeat split; vm_compute; reflexivity. Qed.

(** C3 fails at Ana and at Bob, who has no account, both with the
    password 5. *)
Lemma number_password_tells_known_from_unknown_witness :
  fst (serve (login demo_check
                (JObj {[ "email" := JStr "ana@x.com"; "password" := JNum 5 ]}))
             (ana_world true))
  = Response 500 (TextBody "Internal Server Error") ∧
  fst (serve (login demo_check
                (JObj {[ "email" := JStr "bob@x.com"; "password" := JNum 5 ]}))
             (ana_world true))
  = Response 401 (JsonBody (JObj {[
      "success" := JBool false;
      "error" := JStr "Credenciais inválidas." ]})).
Proof.
  destruct (number_password_tells_known_from_unknown demo_check
              {[ "email" := JStr "ana@x.com"; "password" := JNum 5 ]}
              {[ "email" := JStr "bob@x.com"; "password" := JNum 5 ]}
              "ana@x.com" "bob@x.com" 5 ana (ana_world true))
    as (H1 & H2 & _);
    [reflexivity | reflexivity | reflexivity | reflexivity | reflexivity
    | discriminate | discriminate | discriminate | reflexivity | reflexivity
    | reflexivity | reflexivity | reflexivity |].
  split; [exact H1 | exact H2].
Defined.

(** C5 as stated fails: a request without a body is refused by
    [get_json] with 415, and a request whose JSON body is a list, which
    has neither field, makes [data.get] raise, and Flask answers 500. *)
Lemma login_without_fields_is_not_always_400 :
  serve (post_login demo_check NotJson) (ana_world true)
  = (Response 415 (TextBody "Unsupported Media Type"), ana_world true) ∧
  serve (post_login demo_check (Json (JArr [JNum 1]))) (ana_world true)
  = (Response 500 (TextBody "Internal Server Error"), ana_world true).
Proof. split; vm_compute; reflexivity. Qed.

(** C5, as the code has it, at a body without [password]. *)
Lemma login_missing_field_is_400_witness :
  serve (post_login demo_check
           (Json (JObj {[ "email" := JStr "ana@x.com" ]})))
        (ana_world true)
  = (Response 400 (JsonBody (JObj {[
       "success" := JBool false;
       "error" := JStr "Email e senha são obrigatórios." ]})),
     ana_world true).
Proof.
  apply (proj1 (login_missing_field_is_400 demo_check
                  (Json (JObj {[ "email" := JStr "ana@x.com" ]}))
                  (ana_world true))).
  right. exists {[ "email" := JStr "ana@x.com" ]}.
  split; [reflexivity | right; reflexivity].
Defined.

(** C6 as stated fails, with the two fields present and the connection
    opened: an email that is the empty string is answered with 400, which
    is none of 500, 401 and 200; an email that is a number, an email that
    holds U+0000, and Ana's email with a password that is a number, are
    answered with Flask's 500 although the database is reachable. *)
Lemma login_fields_present_other_outcomes :
  is_Some (({[ "email" := JStr ""; "password" := JStr "x" ]}
            : gmap string json) !! "email") ∧
  is_Some (({[ "email" := JStr ""; "password" := JStr "x" ]}
            : gmap string json) !! "password") ∧
  status (fst (serve (login demo_check (credentials "" "x"))
                     (ana_world true))) = 400%Z ∧
  db_up (ana_world true) = true ∧
  fst (serve (login demo_check
                (JObj {[ "email" := JNum 7; "password" := JStr "x" ]}))
             (ana_world true))
  = Response 500 (TextBody "Internal Server Error") ∧
  fst (serve (login demo_check (credentials ("bob" +:+ NUL) "x"))
             (ana_world true))
  = Response 500 (TextBody "Internal Server Error") ∧
  fst (serve (login demo_check
                (JObj {[ "email" := JStr "ana@x.com"; "password" := JNum 5 ]}))
             (ana_world true))
  = Response 500 (TextBody "Internal Server Error").
Proof. repeat split; try (eexists; reflexivity). Qed.

(** C6, as the code has it, at Ana's credentials. *)
Lemma login_status_by_cause_witness :
  status (fst (serve (login demo_check (credentials "ana@x.com" "secret1"))
                     (ana_world true))) = 200%Z.
Proof.
  destruct (login_status_by_cause demo_check
              {[ "email" := JStr "ana@x.com"; "password" := JStr "secret1" ]}
              "ana@x.com" "secret1" (ana_world true))
    as [(Hdown & _) | [(_ & _ & _ & H) | (_ & u & _ & _ & _ & H)]];
    [reflexivity | reflexivity | discriminate | discriminate | reflexivity
    | intros u _; eexists; reflexivity | ..].
  - discriminate Hdown.
  - vm_compute in H. discriminate H.
  - exact H.
Defined.

(** C7 at Ana's login. *)
Lemma login_success_body_witness :
  ∃ u, u ∈ table (ana_world true) ∧ users.email u = "ana@x.com" ∧
       fst (serve (login demo_check (credentials "ana@x.com" "secret1"))
                  (ana_world true))
       = Response 200 (JsonBody (JObj {[
           "success" := JBool true;
           "user" := JObj {[
             "name" := json_of_text (users.name u);
             "email" := JStr (users.email u);
             "photo" := JStr (default "" (users.photo u)) ]} ]})).
Proof.
  destruct (login_success_body demo_check
              (credentials "ana@x.com" "secret1") (ana_world true))
    as (o & e & u & Hdata & He & Hin & Heq & Hbody & _);
    [reflexivity|].
  exists u. split; [exact Hin|]. split; [|exact Hbody].
  injection Hdata as <-. rewrite Heq.
  vm_compute in He. injection He as <-. reflexivity.
Defined.

(** C8 at a table of three rows, stored oldest first, and at the page
    that [GET /admin] renders for it. *)
Lemma admin_listing_newest_first_witness :
  select_name_email
    [users.Row 1 "a@x" "h1" (Some "A") None 10;
     users.Row 2 "b@x" "h2" None (Some "p") 30;
     users.Row 3 "c@x" "h3" (Some "C") None 20]
  = [(None, "b@x"); (Some "C", "c@x"); (Some "A", "a@x")].
Proof.
  symmetry.
  apply (proj2 (proj2 (admin_listing_newest_first "admin123" demo_generate
           [users.Row 1 "a@x" "h1" (Some "A") None 10;
            users.Row 2 "b@x" "h2" None (Some "p") 30;
            users.Row 3 "c@x" "h3" (Some "C") None 20]))
         GET ∅ ""
         (mkWorld true
            [users.Row 1 "a@x" "h1" (Some "A") None 10;
             users.Row 2 "b@x" "h2" None (Some "p") 30;
             users.Row 3 "c@x" "h3" (Some "C") None 20] 4 40 ∅ 0 [] [])
         []);
    reflexivity.
Defined.

(** C9 fails at a [POST /admin] with a wrong admin password: the
    connection of the request is open after the redirect. *)
Lemma admin_refused_keeps_connection_open_witness :
  fst (serve (admin "admin123" demo_generate POST
                (filled_form "Bob" "bob@x.com" "pw" "wrong") "")
             (ana_world true))
  = Response 302 (Redirect "/admin") ∧
  conns (snd (serve (admin "admin123" demo_generate POST
                       (filled_form "Bob" "bob@x.com" "pw" "wrong") "")
                    (ana_world true))) !! 1%nat = Some TxIdle.
Proof.
  destruct (admin_refused_keeps_connection_open "admin123" demo_generate
              (filled_form "Bob" "bob@x.com" "pw" "wrong") ""
              (ana_world true)) as (Hr & Hc & _);
    [reflexivity | vm_compute; discriminate |].
  split; [exact Hr | exact Hc].
Defined.

(** C2 as stated fails: when the connection cannot be opened, a
    [POST /admin] with a wrong admin password is answered with the plain
    500; nothing is flashed and there is no redirect. *)
Lemma admin_refused_without_connection :
  (filled_form "Bob" "bob@x.com" "pw" "wrong" : gmap string string)
    !! "admin_password" ≠ Some "admin123" ∧
  serve (admin "admin123" demo_generate POST
           (filled_form "Bob" "bob@x.com" "pw" "wrong") "")
        (ana_world false)
  = (Response 500 (TextBody "Erro de conexão com a base de dados."),
     mkWorld false [ana] 2 10 ∅ 1 [] [EvConnect false]).
Proof. split; [vm_compute; discriminate | vm_compute; reflexivity]. Qed.

(** C2, as the code has it, at the same form. *)
Lemma admin_refused_inserts_nothing_witness :
  table (snd (serve (admin "admin123" demo_generate POST
                       (filled_form "Bob" "bob@x.com" "pw" "wrong") "")
                    (ana_world true))) = [ana] ∧
  flashes (snd (serve (admin "admin123" demo_generate POST
                         (filled_form "Bob" "bob@x.com" "pw" "wrong") "")
                      (ana_world true)))
  = [("error", "Senha de admin incorreta!")].
Proof.
  destruct (admin_refused_inserts_nothing "admin123" demo_generate
              (filled_form "Bob" "bob@x.com" "pw" "wrong") ""
              (ana_world true)) as (Ht & _ & Hup & _);
    [vm_compute; discriminate |].
  split; [exact Ht | exact (proj1 (proj2 (Hup eq_refl)))].
Defined.

(** C4 as stated fails: the email is Ana's, the connection is opened
    and the admin password is right.  With a name of 101 characters the
    [INSERT] is refused for the name; with a name that holds U+0000 the
    driver refuses to send it.  Either way the message is not the one of
    the duplicate email. *)
Lemma duplicate_email_with_long_name :
  select_by_email "ana@x.com" (table (ana_world true)) = Some ana ∧
  fst (serve (admin "admin123" demo_generate POST
                (filled_form (repeat_char "a" 101) "ana@x.com" "pw"
                             "admin123") "")
             (ana_world true))
  = Response 200
      (HtmlPage
         [("error",
           "Ocorreu um erro: value too long for type character varying(100)"
           +:+ LF)]
         [(Some "Ana", "ana@x.com")]) ∧
  fst (serve (admin "admin123" demo_generate POST
                (filled_form ("Ana" +:+ NUL) "ana@x.com" "pw" "admin123") "")
             (ana_world true))
  = Response 200
      (HtmlPage
         [("error",
           "Ocorreu um erro: A string literal cannot contain NUL (0x00) characters.")]
         [(Some "Ana", "ana@x.com")]) ∧
  "Ocorreu um erro: value too long for type character varying(100)" +:+ LF
  ≠ "O email ana@x.com já existe." ∧
  "Ocorreu um erro: A string literal cannot contain NUL (0x00) characters."
  ≠ "O email ana@x.com já existe.".
Proof. repeat split; try (vm_compute; reflexivity); discriminate. Qed.

Lemma ana_table_schema_ok : schema_ok (table (ana_world true)).
Proof.
  split.
  - apply Forall_singleton. unfold row_ok. vm_compute.
    repeat split; try reflexivity; lia.
  - simpl. apply NoDup_singleton.
Qed.

(** C4, as the code has it, at a second Ana. *)
Lemma duplicate_email_is_refused_witness :
  fst (serve (admin "admin123" demo_generate POST
                (filled_form "Ana B." "ana@x.com" "pw" "admin123") "")
             (ana_world true))
  = Response 200 (HtmlPage [("error", "O email ana@x.com já existe.")]
                           [(Some "Ana", "ana@x.com")]) ∧
  table (snd (serve (admin "admin123" demo_generate POST
                       (filled_form "Ana B." "ana@x.com" "pw" "admin123") "")
                    (ana_world true))) = [ana].
Proof.
  destruct (duplicate_email_is_refused "admin123" demo_generate
              (filled_form "Ana B." "ana@x.com" "pw" "admin123")
              "" "Ana B." "ana@x.com" "pw" ana (ana_world true))
    as ((message & Hr & _ & Hmsg) & Ht & _);
    [reflexivity | reflexivity | reflexivity | reflexivity | reflexivity
    | exact ana_table_schema_ok | reflexivity |].
  split; [|exact Ht].
  rewrite Hr, Hmsg;
    [reflexivity | vm_compute; lia | reflexivity | vm_compute; lia
    | reflexivity].
Defined.

(** C1 as stated fails, with the connection opened, the right admin
    password and an email that no row has.  With the empty password the
    row is inserted and committed, and the login with that email and that
    password is answered with the 400 of a missing field.  With a name of
    101 characters, and with a name that holds U+0000, no row is
    inserted. *)
Lemma empty_password_is_created_and_cannot_log_in :
  select_by_email "ana@x.com" (table (empty_world true)) = None ∧
  table (snd (serve (admin "admin123" demo_generate POST
                       (filled_form "Ana" "ana@x.com" "" "admin123") "")
                    (empty_world true)))
  = [users.Row 1 "ana@x.com" (demo_generate "" "") (Some "Ana") None 0] ∧
  demo_check (demo_generate "" "") (JStr "") = Returned true ∧
  status (fst (serve (login demo_check (credentials "ana@x.com" ""))
                (snd (serve (admin "admin123" demo_generate POST
                               (filled_form "Ana" "ana@x.com" "" "admin123")
                               "")
                            (empty_world true))))) = 400%Z ∧
  table (snd (serve (admin "admin123" demo_generate POST
                       (filled_form (repeat_char "a" 101) "ana@x.com"
                                    "secret1" "admin123") "")
                    (empty_world true))) = [] ∧
  table (snd (serve (admin "admin123" demo_generate POST
                       (filled_form ("Ana" +:+ NUL) "ana@x.com" "secret1"
                                    "admin123") "")
                    (empty_world true))) = [].
Proof. repeat split; vm_compute; reflexivity. Qed.

(** C1, as the code has it, at Ana. *)
Lemma created_user_logs_in_witness :
  table (snd (serve (admin "admin123" demo_generate POST
                       (filled_form "Ana" "ana@x.com" "secret1" "admin123")
                       "")
                    (empty_world true))) = [ana] ∧
  status (fst (serve (login demo_check (credentials "ana@x.com" "secret1"))
                (snd (serve (admin "admin123" demo_generate POST
                               (filled_form "Ana" "ana@x.com" "secret1"
                                            "admin123") "")
                            (empty_world true))))) = 200%Z.
Proof.
  destruct (created_user_logs_in "admin123" demo_generate demo_check
              (filled_form "Ana" "ana@x.com" "secret1" "admin123")
              "" "Ana" "ana@x.com" "secret1" (empty_world true))
    as (_ & Ht & _ & Hlogin & _);
    [exact demo_hash_verifies | reflexivity | reflexivity | reflexivity
    | reflexivity | reflexivity | discriminate | discriminate
    | vm_compute; lia | vm_compute; lia | vm_compute; lia
    | reflexivity | reflexivity | reflexivity | reflexivity |].
  split; [exact Ht|]. rewrite Hlogin. reflexivity.
Defined.
